(** * Retry and cache decorators of [ts_js-space/decorator_example.js]

    A shallow embedding of [retryRequest], [cacheRequest] and their
    composition [enhanced], and the properties of the design document
    proved (or refuted) on it.

    Modelling choices.
    - JavaScript numbers that the decorators compute with ([maxRetries],
      [baseDelay], [ttl], the attempt index, [Date.now()]) are integers [Z].
    - An [async] function is a state transformer that either returns a value
      or throws; [await] runs the callee to completion.  Invocations do not
      interleave (the concurrent-miss race of the design notes is outside
      this development).
    - The host ([Date.now], [setTimeout], the wrapped base operation) is a
      parameter: an arbitrary state type [Env] with a clock reading and a
      timer effect.
    - Every host interaction is appended to a trace, and the base producer is
      observed through a spy that records argument list and outcome, so that
      "how many times was it invoked, with what, and when" are statements
      about the trace.
    - [fetchData] and [main] are embedded over the host's [fetch], given as a
      parameter like the clock; the lines [main] writes with [console.error]
      are kept in a list of their own beside the trace. *)

From Stdlib Require Import ZArith List String Ascii Bool Lia DecimalString.
From Equations Require Import Equations.
Import ListNotations.
Open Scope string_scope.
Open Scope list_scope.
Open Scope Z_scope.

(** ** JavaScript values *)

Inductive JsValue : Type :=
| JUndefined
| JNull
| JBool (b : bool)
| JNumber (n : Z)
| JNaN
| JString (s : string)
| JObject (ref : nat).

(** [ToBoolean]: what [cache && ...] tests. *)
Definition truthy (v : JsValue) : bool :=
  match v with
  | JUndefined | JNull | JNaN => false
  | JBool b => b
  | JNumber n => negb (n =? 0)
  | JString s => negb (String.eqb s "")
  | JObject _ => true
  end.

(** Thrown values are [Error] objects; only [message] is read. *)
Record JsError : Type := mkError { message : string }.

(** Template-literal rendering of an integer-valued number. *)
Definition show (n : Z) : string := NilZero.string_of_int (Z.to_int n).

(** [contains s t]: [t] occurs in [s]. *)
Definition contains (s t : string) : Prop :=
  exists pre post, s = (pre ++ t ++ post)%string.

(** ** Outcomes and the state-and-exception monad *)

Inductive Outcome (X : Type) : Type :=
| Returned (x : X)
| Thrown (err : JsError).
Arguments Returned {X} x.
Arguments Thrown {X} err.

Definition M (St X : Type) : Type := St -> Outcome X * St.

Definition ret {St X} (x : X) : M St X := fun st => (Returned x, st).

Definition throw {St X} (err : JsError) : M St X := fun st => (Thrown err, st).

Definition bind {St X Y} (c : M St X) (k : X -> M St Y) : M St Y :=
  fun st =>
    match c st with
    | (Returned x, st') => k x st'
    | (Thrown err, st') => (Thrown err, st')
    end.

(** [try { return await c } catch (err) { handler }] *)
Definition try_catch {St X} (c : M St X) (handler : JsError -> M St X) : M St X :=
  fun st =>
    match c st with
    | (Returned x, st') => (Returned x, st')
    | (Thrown err, st') => handler err st'
    end.

Notation "x <- c1 ;; c2" := (bind c1 (fun x => c2))
  (at level 61, c1 at next level, right associativity).
Notation "c1 ;; c2" := (bind c1 (fun _ => c2))
  (at level 61, right associativity).

(** ** Traces *)

Inductive Event : Type :=
| EvCall (args : list JsValue) (result : Outcome JsValue)
| EvNow (now : Z)
| EvTimeout (delay : Z)
| EvWarn (msg : string)
| EvLog (msg : string).

Definition is_call (ev : Event) : bool :=
  match ev with EvCall _ _ => true | _ => false end.

Definition is_timeout (ev : Event) : bool :=
  match ev with EvTimeout _ => true | _ => false end.

(** The invocations of the base producer recorded in a trace. *)
Definition calls (evs : list Event) : list Event := filter is_call evs.

(** The timer delays recorded in a trace. *)
Definition timeouts (evs : list Event) : list Event := filter is_timeout evs.

Definition is_warning (ev : Event) : bool :=
  match ev with EvWarn _ => true | _ => false end.

(** The [console.warn] lines recorded in a trace. *)
Definition warnings (evs : list Event) : list Event := filter is_warning evs.

(** The time asked of [setTimeout] over a trace, timer after timer. *)
Fixpoint total_delay (evs : list Event) : Z :=
  match evs with
  | [] => 0
  | EvTimeout delay :: evs' => delay + total_delay evs'
  | _ :: evs' => total_delay evs'
  end.

(** The two template literals of [retryRequest]. *)
Definition exhausted_message (maxRetries : Z) (err : JsError) : string :=
  ("Failed after " ++ show maxRetries ++ " attempts: " ++ message err)%string.

Definition retry_message (attempt delay : Z) : string :=
  ("Retry #" ++ show (attempt + 1) ++ " in " ++ show delay ++ "ms...")%string.

Arguments exhausted_message : simpl never.
Arguments retry_message : simpl never.

Section Decorators.

Context {Env : Type}.

(** [Date.now()] in a host state. *)
Variable date_now : Env -> Z.

(** Host state once a [setTimeout] timer of the given delay has fired. *)
Variable set_timeout : Z -> Env -> Env.

Record World : Type := mkWorld { host : Env; trace : list Event }.

Definition emit (ev : Event) (w : World) : World :=
  {| host := host w; trace := trace w ++ [ev] |}.

(** A base asynchronous operation: it sees its arguments and the host. *)
Definition Producer : Type := list JsValue -> Env -> Outcome JsValue * Env.

(** Anything callable as [await fn(...args)]. *)
Definition AsyncFn : Type := list JsValue -> M World JsValue.

(** The base producer under observation: each invocation is recorded with
    the arguments it received and its outcome. *)
Definition spy (p : Producer) : AsyncFn :=
  fun args w =>
    let (r, s') := p args (host w) in
    (r, {| host := s'; trace := trace w ++ [EvCall args r] |}).

Definition Date_now : M World Z :=
  fun w => let now := date_now (host w) in (Returned now, emit (EvNow now) w).

Definition console_warn (msg : string) : M World unit :=
  fun w => (Returned tt, emit (EvWarn msg) w).

Definition console_log (msg : string) : M World unit :=
  fun w => (Returned tt, emit (EvLog msg) w).

(** [await new Promise((r) => setTimeout(r, delay))] *)
Definition sleep (delay : Z) : M World unit :=
  fun w => (Returned tt,
            {| host := set_timeout delay (host w);
               trace := trace w ++ [EvTimeout delay] |}).

(** ** retryRequest *)

Section Retry.

Variable fn : AsyncFn.
Variables maxRetries baseDelay : Z.
Variable args : list JsValue.

(** The [for] loop, entered at its test with the given value of [attempt]. *)
Equations retry_loop (attempt : Z) : M World JsValue
  by wf (Z.to_nat (maxRetries - attempt)) lt :=
retry_loop attempt with Z_lt_dec attempt maxRetries := {
  | left _ =>
      try_catch (fn args)
        (fun err =>
           if attempt =? maxRetries - 1
           then throw (mkError (exhausted_message maxRetries err))
           else
             let delay := baseDelay * 2 ^ attempt in
             console_warn (retry_message attempt delay) ;;
             sleep delay ;;
             retry_loop (attempt + 1))
  | right _ => ret JUndefined }.
Next Obligation. lia. Qed.

End Retry.

Definition retryRequest (fn : AsyncFn) (maxRetries baseDelay : Z) : AsyncFn :=
  fun args => retry_loop fn maxRetries baseDelay args 0.

(** *** What a run of the loop looks like from outside *)

Section RetryRuns.

Variable p : Producer.
Variables maxRetries baseDelay : Z.
Variable args : list JsValue.

(** The world after the [catch] block of a failed attempt that is not the
    last one: the warning is printed and the timer has been awaited. *)
Definition backed_off (attempt : Z) (w : World) : World :=
  {| host := set_timeout (baseDelay * 2 ^ attempt) (host w);
     trace := trace w ++
              [EvWarn (retry_message attempt (baseDelay * 2 ^ attempt));
               EvTimeout (baseDelay * 2 ^ attempt)] |}.

(** The events of consecutive failed attempts that were each followed by a
    retry, the first of them being attempt number [attempt]. *)
Fixpoint backoff_events (attempt : Z) (errs : list JsError) : list Event :=
  match errs with
  | [] => []
  | err :: errs' =>
      EvCall args (Thrown err)
      :: EvWarn (retry_message attempt (baseDelay * 2 ^ attempt))
      :: EvTimeout (baseDelay * 2 ^ attempt)
      :: backoff_events (attempt + 1) errs'
  end.

(** The host state in which [p] runs [j] attempts after attempt number
    [attempt] ran in host state [s], when every attempt in between fails and
    is retried. *)
Fixpoint host_at (attempt : Z) (j : nat) (s : Env) : Env :=
  match j with
  | O => s
  | S j' =>
      host_at (attempt + 1) j'
        (set_timeout (baseDelay * 2 ^ attempt) (snd (p args s)))
  end.

(** What the wrapper hands to its caller when the last attempt it made had
    the given outcome. *)
Definition retry_result (final : Outcome JsValue) : Outcome JsValue :=
  match final with
  | Returned v => Returned v
  | Thrown err => Thrown (mkError (exhausted_message maxRetries err))
  end.

(** The outcome of attempt number [j] (counted from 0) of a run that starts
    in host state [s], provided the attempts before it all failed. *)
Definition attempt_outcome (j : nat) (s : Env) : Outcome JsValue :=
  fst (p args (host_at 0 j s)).

End RetryRuns.

(** A producer that fails whatever it is given and whenever it is called. *)
Definition always_fails (p : Producer) : Prop :=
  forall args s, exists err, fst (p args s) = Thrown err.

(** ** cacheRequest *)

(** The closure variables [cache] and [timestamp] of one [cacheRequest]
    instance.  They are private to the returned function, so they travel
    next to the world rather than inside it. *)
Record CacheSlot : Type := mkSlot { cache : JsValue; timestamp : Z }.

(** [let cache = null; let timestamp = 0;] *)
Definition initial_slot : CacheSlot := {| cache := JNull; timestamp := 0 |}.

Definition Cached (X : Type) : Type := M (CacheSlot * World) X.

Definition in_world {X} (c : M World X) : Cached X :=
  fun st => let (r, w') := c (snd st) in (r, (fst st, w')).

Definition read_cache : Cached JsValue :=
  fun st => (Returned (cache (fst st)), st).

Definition read_timestamp : Cached Z :=
  fun st => (Returned (timestamp (fst st)), st).

Definition write_cache (v : JsValue) : Cached unit :=
  fun st => (Returned tt,
             ({| cache := v; timestamp := timestamp (fst st) |}, snd st)).

Definition write_timestamp (t : Z) : Cached unit :=
  fun st => (Returned tt,
             ({| cache := cache (fst st); timestamp := t |}, snd st)).

(** The condition of the [if]: [cache && now - timestamp < ttl]. *)
Definition fresh (ttl : Z) (c : JsValue) (t now : Z) : bool :=
  truthy c && (now - t <? ttl).

Definition cacheRequest (fn : AsyncFn) (ttl : Z)
  : list JsValue -> Cached JsValue :=
  fun args =>
    now <- in_world Date_now ;;
    c <- read_cache ;;
    t <- read_timestamp ;;
    if fresh ttl c t now then
      in_world (console_log "⚡ Serving from cache...") ;;
      ret c
    else
      result <- in_world (fn args) ;;
      write_cache result ;;
      write_timestamp now ;;
      ret result.

(** *** Statements about two consecutive calls and about a refresh *)

(** After a call that reached the producer and returned [v], a second call
    whose clock reading is less than [ttl] after the first call's is answered
    with [v] and the producer is not invoked again: the only invocation
    recorded since before the first call is the first call's. *)
Definition second_call_hits (p : Producer) (ttl : Z)
    (args args' : list JsValue) (slot : CacheSlot) (w : World)
    (v : JsValue) : Prop :=
  forall slot1 w1,
    fresh ttl (cache slot) (timestamp slot) (date_now (host w)) = false ->
    cacheRequest (spy p) ttl args (slot, w) = (Returned v, (slot1, w1)) ->
    forall s2,
      date_now s2 - date_now (host w) < ttl ->
      exists slot2 w2,
        cacheRequest (spy p) ttl args'
          (slot1, {| host := s2; trace := trace w1 |})
        = (Returned v, (slot2, w2))
        /\ calls (trace w2) = calls (trace w) ++ [EvCall args (Returned v)].

(** The slot after a call that reached the producer. *)
Definition refreshed (slot : CacheSlot) (now : Z) (r : Outcome JsValue)
  : CacheSlot :=
  match r with
  | Returned result => {| cache := result; timestamp := now |}
  | Thrown _ => slot
  end.

(** The call invokes the producer exactly once, with the caller's arguments
    and right after reading the clock, hands its outcome to the caller, and
    on success stores the value with the clock reading. *)
Definition refreshes (p : Producer) (ttl : Z) (args : list JsValue)
    (slot : CacheSlot) (w : World) : Prop :=
  let now := date_now (host w) in
  let r := fst (p args (host w)) in
  cacheRequest (spy p) ttl args (slot, w) =
    (r, (refreshed slot now r,
         {| host := snd (p args (host w));
            trace := trace w ++ [EvNow now; EvCall args r] |})).

(** ** The composition *)

Definition default_maxRetries : Z := 3.
Definition default_baseDelay : Z := 300.
Definition default_ttl : Z := 5000.

(** [const enhanced = cacheRequest(retryRequest(fetchData))], with the base
    operation under the spy. *)
Definition enhanced (base : Producer) : list JsValue -> Cached JsValue :=
  cacheRequest
    (retryRequest (spy base) default_maxRetries default_baseDelay)
    default_ttl.

(** ** fetchData *)

Section Program.

(** What [await fetch(url)] resolves with, as far as [fetchData] looks at
    it: the [ok] flag, the [status] code and the [json()] method, which
    reads the body in the host. *)
Record Response : Type :=
  mkResponse { ok : bool; status : Z; json : M Env JsValue }.

(** The host's [fetch]. *)
Variable fetch : string -> M Env Response.

Definition posts_url : string := "https://jsonplaceholder.typicode.com/posts".

Definition http_error_message (status : Z) : string :=
  ("HTTP error! Status: " ++ show status)%string.

(** [fetchData] declares no parameter: whatever it is called with is
    dropped. *)
Definition fetchData : Producer :=
  fun _ =>
    res <- fetch posts_url ;;
    if negb (ok res)
    then throw (mkError (http_error_message (status res)))
    else json res.

(** A server that answers every request with the same non-ok status. *)
Definition server_refuses (code : Z) : Prop :=
  forall s, exists res s',
    fetch posts_url s = (Returned res, s')
    /\ ok res = false /\ status res = code.

(** ** main *)

(** How the console renders a value printed after a label. *)
Variable inspect : JsValue -> string.

(** Property ["0"] of a value that is neither [null] nor [undefined]. *)
Variable element0 : JsValue -> JsValue.

(** The message of the [TypeError] raised by reading a property of [null]
    or [undefined]. *)
Variable type_error_message : JsValue -> string.

(** What [main] runs in: the lines written by [console.error], the slot of
    the one [enhanced] instance of the program, and the world. *)
Definition Main (X : Type) : Type := M (list string * (CacheSlot * World)) X.

Definition in_program {X} (c : Cached X) : Main X :=
  fun st => let (r, cw) := c (snd st) in (r, (fst st, cw)).

(** [console.error(label, text)] with a string [text]. *)
Definition console_error (label text : string) : Main unit :=
  fun st => (Returned tt, (fst st ++ [(label ++ " " ++ text)%string], snd st)).

Definition log (line : string) : Main unit :=
  in_program (in_world (console_log line)).

(** [console.log(label, v)] *)
Definition log_value (label : string) (v : JsValue) : Main unit :=
  log (label ++ " " ++ inspect v)%string.

(** [data[0]] *)
Definition index0 (data : JsValue) : Main JsValue :=
  match data with
  | JUndefined | JNull => throw (mkError (type_error_message data))
  | _ => ret (element0 data)
  end.

Definition newline : string := String "010"%char EmptyString.

Definition main : Main unit :=
  try_catch
    (log "First call:" ;;
     data1 <- in_program (enhanced fetchData []) ;;
     first1 <- index0 data1 ;;
     log_value "✅ Success:" first1 ;;

     log (newline ++ "Second call (within 5s, should use cache):")%string ;;
     data2 <- in_program (enhanced fetchData []) ;;
     first2 <- index0 data2 ;;
     log_value "✅ Success:" first2 ;;

     log (newline ++ "Waiting 6 seconds...")%string ;;
     in_program (in_world (sleep 6000)) ;;

     log (newline ++ "Third call (after 5s, should fetch again):")%string ;;
     data3 <- in_program (enhanced fetchData []) ;;
     first3 <- index0 data3 ;;
     log_value "✅ Success:" first3)
    (fun err => console_error "❌ Error:" (message err)).

End Program.

End Decorators.

Arguments World Env : clear implicits.
Arguments Producer Env : clear implicits.
Arguments AsyncFn Env : clear implicits.
Arguments Response Env : clear implicits.

(** A test host: the state is the clock, a timer advances it by its delay. *)
Module TestHost.
Definition clock (s : Z) : Z := s.
Definition timer (delay s : Z) : Z := s + delay.
Definition failing (msg : string) : Producer Z :=
  fun _ s => (Thrown (mkError msg), s + 1).
Definition returning (v : JsValue) : Producer Z :=
  fun _ s => (Returned v, s + 1).
(** Fails while the clock is before [t], succeeds from [t] on. *)
Definition failing_until (t : Z) (v : JsValue) : Producer Z :=
  fun _ s => if s <? t then (Thrown (mkError "not yet"), s + 1)
             else (Returned v, s + 1).
Definition start (t : Z) : World Z := {| host := t; trace := [] |}.
(** A server that takes [latency] milliseconds to answer, with the given
    status and body. *)
Definition server (latency code : Z) (body : JsValue)
  : string -> M Z (Response Z) :=
  fun _ s =>
    (Returned {| ok := (200 <=? code) && (code <=? 299);
                 status := code;
                 json := fun s' => (Returned body, s') |},
     s + latency).
Definition render (v : JsValue) : string :=
  match v with JString text => text | _ => "[value]" end.
Definition first_post (v : JsValue) : JsValue :=
  match v with JObject ref => JObject (ref + 1) | _ => JUndefined end.
Definition no_property (v : JsValue) : string :=
  "Cannot read properties of null or undefined".
End TestHost.

(** * Properties *)

Section Properties.

Context {Env : Type}.
Variable date_now : Env -> Z.
Variable set_timeout : Z -> Env -> Env.

Local Abbreviation retry_loop := (retry_loop set_timeout).
Local Abbreviation retryRequest := (retryRequest set_timeout).
Local Abbreviation cacheRequest := (cacheRequest date_now).
Local Abbreviation enhanced := (enhanced date_now set_timeout).
Local Abbreviation backed_off := (backed_off set_timeout).
Local Abbreviation host_at := (host_at set_timeout).
Local Abbreviation attempt_outcome := (attempt_outcome set_timeout).
Local Abbreviation second_call_hits := (second_call_hits date_now).
Local Abbreviation refreshes := (refreshes date_now).

Lemma retry_loop_step fn maxRetries baseDelay args attempt w :
  retry_loop fn maxRetries baseDelay args attempt w =
  if attempt <? maxRetries then
    match fn args w with
    | (Returned result, w1) => (Returned result, w1)
    | (Thrown err, w1) =>
        if attempt =? maxRetries - 1
        then (Thrown (mkError (exhausted_message maxRetries err)), w1)
        else retry_loop fn maxRetries baseDelay args (attempt + 1)
               (backed_off baseDelay attempt w1)
    end
  else (Returned JUndefined, w).
Proof.
  rewrite (retry_loop_equation_1 set_timeout fn maxRetries baseDelay args attempt).
  destruct (Z_lt_dec attempt maxRetries) as [Hlt | Hge]; cbn.
  - apply Z.ltb_lt in Hlt. rewrite Hlt.
    unfold try_catch. destruct (fn args w) as [[result | err] w1]; auto.
    destruct (attempt =? maxRetries - 1); auto.
    unfold bind, console_warn, sleep, emit, backed_off; cbn.
    rewrite <- app_assoc. reflexivity.
  - apply Z.ltb_nlt in Hge. rewrite Hge. reflexivity.
Qed.

(** *** Counting in the trace of a run *)

Lemma calls_app evs1 evs2 : calls (evs1 ++ evs2) = calls evs1 ++ calls evs2.
Proof. apply filter_app. Qed.

Lemma calls_backoff_events baseDelay args attempt errs :
  calls (backoff_events baseDelay args attempt errs) =
  map (fun err => EvCall args (Thrown err)) errs.
Proof.
  revert attempt. unfold calls.
  induction errs as [| err errs IH]; intros attempt; cbn.
  - reflexivity.
  - now rewrite IH.
Qed.

Lemma backoff_events_app args baseDelay attempt errs1 errs2 :
  backoff_events baseDelay args attempt (errs1 ++ errs2) =
  backoff_events baseDelay args attempt errs1 ++
  backoff_events baseDelay args (attempt + Z.of_nat (List.length errs1)) errs2.
Proof.
  revert attempt. induction errs1 as [| err errs1 IH]; intros attempt.
  - cbn. now rewrite Z.add_0_r.
  - cbn [backoff_events app List.length]. rewrite IH.
    replace (attempt + 1 + Z.of_nat (List.length errs1))
      with (attempt + Z.of_nat (S (List.length errs1))) by lia.
    reflexivity.
Qed.

(** *** The shape of every run of the retry loop

    Started at an attempt number below [maxRetries], the loop makes a
    sequence of failed-and-retried attempts followed by one last attempt,
    and what it hands back is decided by that last attempt alone. *)
Lemma retry_loop_run (p : Producer Env) maxRetries baseDelay args :
  forall (n : nat) attempt w,
    Z.to_nat (maxRetries - attempt) = n ->
    attempt < maxRetries ->
    exists errs final,
      retry_loop (spy p) maxRetries baseDelay args attempt w =
        (retry_result maxRetries final,
         {| host := snd (p args (host_at p baseDelay args attempt
                                   (List.length errs) (host w)));
            trace := trace w ++
                     backoff_events baseDelay args attempt errs ++
                     [EvCall args final] |})
      /\ attempt + Z.of_nat (List.length errs) <= maxRetries - 1
      /\ (forall j err, nth_error errs j = Some err ->
            fst (p args (host_at p baseDelay args attempt j (host w)))
            = Thrown err)
      /\ fst (p args (host_at p baseDelay args attempt
                        (List.length errs) (host w))) = final
      /\ (forall err, final = Thrown err ->
            attempt + Z.of_nat (List.length errs) = maxRetries - 1).
Proof.
  induction n as [| n IH]; intros attempt w Hn Hlt; [lia |].
  rewrite retry_loop_step.
  apply Z.ltb_lt in Hlt as Hltb. rewrite Hltb.
  unfold spy at 1.
  destruct (p args (host w)) as [[v | err] s1] eqn:Hp.
  - exists [], (Returned v). cbn. rewrite Hp. cbn.
    repeat split; try lia; try discriminate.
    intros [| j] err' Hj; discriminate.
  - destruct (attempt =? maxRetries - 1) eqn:Hlast.
    + apply Z.eqb_eq in Hlast.
      exists [], (Thrown err). cbn. rewrite Hp. cbn.
      repeat split; try lia.
      intros [| j] err' Hj; discriminate.
    + apply Z.eqb_neq in Hlast.
      destruct (IH (attempt + 1)
                  (backed_off baseDelay attempt
                     {| host := s1;
                        trace := trace w ++ [EvCall args (Thrown err)] |}))
        as (errs & final & Hrun & Hlen & Herrs & Hfinal & Hexh);
        [lia | lia |].
      exists (err :: errs), final.
      cbn [List.length host_at backoff_events]. cbn [host backed_off trace] in *.
      rewrite Hp. cbn [snd].
      repeat split.
      * rewrite Hrun. f_equal. f_equal.
        rewrite <- !app_assoc. reflexivity.
      * lia.
      * intros [| j] err' Hj; cbn in Hj.
        -- injection Hj as <-. cbn. now rewrite Hp.
        -- cbn [host_at]. rewrite Hp. cbn [snd]. now apply Herrs.
      * exact Hfinal.
      * intros err' Hf. specialize (Hexh err' Hf). lia.
Qed.

Lemma retryRequest_run (p : Producer Env) maxRetries baseDelay args w :
  1 <= maxRetries ->
  exists errs final,
    retryRequest (spy p) maxRetries baseDelay args w =
      (retry_result maxRetries final,
       {| host := snd (p args (host_at p baseDelay args 0
                                 (List.length errs) (host w)));
          trace := trace w ++
                   backoff_events baseDelay args 0 errs ++
                   [EvCall args final] |})
    /\ Z.of_nat (List.length errs) <= maxRetries - 1
    /\ (forall j err, nth_error errs j = Some err ->
          attempt_outcome p baseDelay args j (host w) = Thrown err)
    /\ attempt_outcome p baseDelay args (List.length errs) (host w) = final
    /\ (forall err, final = Thrown err ->
          Z.of_nat (List.length errs) = maxRetries - 1).
Proof.
  intros Hmax. unfold retryRequest, attempt_outcome.
  destruct (retry_loop_run p maxRetries baseDelay args
              (Z.to_nat maxRetries) 0 w)
    as (errs & final & Hrun & Hlen & Herrs & Hfinal & Hexh);
    [f_equal; lia | lia |].
  exists errs, final. repeat split; auto; try lia.
Qed.

Lemma calls_run baseDelay args errs final :
  List.length (calls (backoff_events baseDelay args 0 errs ++ [EvCall args final]))
  = Datatypes.S (List.length errs).
Proof.
  rewrite calls_app, calls_backoff_events, length_app, length_map. cbn. lia.
Qed.

Lemma cacheRequest_step (fn : AsyncFn Env) ttl args slot w :
  cacheRequest fn ttl args (slot, w) =
  let now := date_now (host w) in
  if fresh ttl (cache slot) (timestamp slot) now then
    (Returned (cache slot),
     (slot, emit (EvLog "⚡ Serving from cache...") (emit (EvNow now) w)))
  else
    match fn args (emit (EvNow now) w) with
    | (Returned result, w1) =>
        (Returned result, ({| cache := result; timestamp := now |}, w1))
    | (Thrown err, w1) => (Thrown err, (slot, w1))
    end.
Proof.
  unfold cacheRequest, bind, in_world, Date_now, read_cache, read_timestamp.
  cbn.
  destruct (fresh ttl (cache slot) (timestamp slot) (date_now (host w))).
  - reflexivity.
  - cbn [fst snd].
    destruct (fn args (emit (EvNow (date_now (host w))) w))
      as [[result | err] w1]; reflexivity.
Qed.

Lemma string_app_assoc (a b c : string) :
  ((a ++ b) ++ c)%string = (a ++ b ++ c)%string.
Proof. induction a as [| ch a IH]; cbn; [reflexivity | now rewrite IH]. Qed.

Lemma string_app_nil_r (a : string) : (a ++ "")%string = a.
Proof. induction a as [| ch a IH]; cbn; [reflexivity | now rewrite IH]. Qed.

Lemma exhausted_message_has_cause maxRetries err :
  contains (exhausted_message maxRetries err) (message err).
Proof.
  exists ("Failed after " ++ show maxRetries ++ " attempts: ")%string, "".
  unfold exhausted_message.
  now rewrite string_app_nil_r, !string_app_assoc.
Qed.

Lemma exhausted_message_has_count maxRetries err :
  contains (exhausted_message maxRetries err)
           (show maxRetries ++ " attempts")%string.
Proof.
  exists "Failed after ", (": " ++ message err)%string.
  unfold exhausted_message.
  now rewrite !string_app_assoc.
Qed.

(** ** The retry wrapper *)

Lemma retryRequest_skips_loop (fn : AsyncFn Env) maxRetries baseDelay args w :
  maxRetries <= 0 ->
  retryRequest fn maxRetries baseDelay args w = (Returned JUndefined, w).
Proof.
  intros Hmax. unfold retryRequest. rewrite retry_loop_step.
  destruct (0 <? maxRetries) eqn:Hlt; [apply Z.ltb_lt in Hlt; lia |].
  reflexivity.
Qed.

(** C9. With [maxRetries <= 0] the returned function never invokes the
    wrapped function, whatever that is: it resolves with [undefined], raises
    nothing, and leaves the world (host state and trace) as it found it. *)
Theorem retry_without_budget_returns_undefined
    (fn : AsyncFn Env) maxRetries baseDelay args w :
  maxRetries <= 0 ->
  retryRequest fn maxRetries baseDelay args w = (Returned JUndefined, w).
Proof.
  intros Hmax. unfold retryRequest.
  rewrite retry_loop_step.
  replace (0 <? maxRetries) with false by (symmetry; apply Z.ltb_ge; lia).
  reflexivity.
Qed.

(** C8. With [maxRetries >= 1] every invocation ends, and its trace is that
    of attempts numbered 0, 1, 2, ... in order: a block of failed attempts,
    each followed by the warning and the timer that carry its own attempt
    number, then one last attempt and nothing after it.  The last attempt has
    a number of at most [maxRetries - 1]; if it succeeds its value is
    returned, and if it fails it is attempt [maxRetries - 1] and the
    terminal error is raised. *)
Theorem retry_attempts_are_bounded_and_ordered
    (p : Producer Env) maxRetries baseDelay args w :
  1 <= maxRetries ->
  exists errs final w',
    retryRequest (spy p) maxRetries baseDelay args w =
      (retry_result maxRetries final, w')
    /\ trace w' = trace w ++ backoff_events baseDelay args 0 errs
                          ++ [EvCall args final]
    /\ Z.of_nat (List.length errs) <= maxRetries - 1
    /\ (forall err, final = Thrown err ->
          Z.of_nat (List.length errs) = maxRetries - 1)
    /\ 1 <= Z.of_nat (List.length (calls (backoff_events baseDelay args 0 errs
                                           ++ [EvCall args final])))
         <= maxRetries.
Proof.
  intros Hmax.
  destruct (retryRequest_run p maxRetries baseDelay args w Hmax)
    as (errs & final & Hrun & Hlen & _ & _ & Hexh).
  eexists errs, final, _. split; [exact Hrun |].
  cbn [trace]. rewrite calls_run. repeat split; auto; lia.
Qed.

(** C2. For [maxRetries = n >= 1], a producer that fails on every attempt is
    invoked exactly [n] times; the call ends with the terminal error, whose
    message is built from the message of the last failure recorded and
    contains both that message and "[n] attempts".  With [n = 1] the single
    failed invocation is the whole trace: no warning, no timer. *)
Theorem retry_exhausts_after_n_failures
    (p : Producer Env) maxRetries baseDelay args w :
  1 <= maxRetries ->
  always_fails p ->
  exists evs err w',
    retryRequest (spy p) maxRetries baseDelay args w =
      (Thrown (mkError (exhausted_message maxRetries err)), w')
    /\ trace w' = trace w ++ evs ++ [EvCall args (Thrown err)]
    /\ Z.of_nat (List.length (calls (evs ++ [EvCall args (Thrown err)])))
       = maxRetries
    /\ contains (exhausted_message maxRetries err) (message err)
    /\ contains (exhausted_message maxRetries err)
                (show maxRetries ++ " attempts")%string
    /\ (maxRetries = 1 -> evs = []).
Proof.
  intros Hmax Hfail.
  destruct (retryRequest_run p maxRetries baseDelay args w Hmax)
    as (errs & final & Hrun & Hlen & _ & Hfinal & Hexh).
  destruct (Hfail args (host_at p baseDelay args 0 (List.length errs) (host w)))
    as [err Herr].
  unfold attempt_outcome in Hfinal. rewrite Herr in Hfinal. subst final.
  specialize (Hexh err eq_refl).
  eexists (backoff_events baseDelay args 0 errs), err, _.
  split; [exact Hrun |]. cbn [trace].
  rewrite calls_run.
  repeat split.
  - lia.
  - apply exhausted_message_has_cause.
  - apply exhausted_message_has_count.
  - intros H1. destruct errs; [reflexivity | cbn in Hexh; lia].
Qed.

(** C6. With [maxRetries >= k >= 1], if the first [k - 1] attempts fail and
    attempt [k] (1-indexed) succeeds with [v], the wrapper returns [v]; the
    producer has been invoked exactly [k] times, and the successful
    invocation is the last event of the run. *)
Theorem retry_returns_kth_success
    (p : Producer Env) maxRetries baseDelay args w (k : nat) v :
  (1 <= k)%nat ->
  Z.of_nat k <= maxRetries ->
  (forall j, (j < k - 1)%nat ->
     exists err, attempt_outcome p baseDelay args j (host w) = Thrown err) ->
  attempt_outcome p baseDelay args (k - 1) (host w) = Returned v ->
  exists errs w',
    retryRequest (spy p) maxRetries baseDelay args w = (Returned v, w')
    /\ trace w' = trace w ++ backoff_events baseDelay args 0 errs
                          ++ [EvCall args (Returned v)]
    /\ List.length (calls (backoff_events baseDelay args 0 errs
                             ++ [EvCall args (Returned v)])) = k.
Proof.
  intros Hk Hkmax Hfails Hok.
  destruct (retryRequest_run p maxRetries baseDelay args w ltac:(lia))
    as (errs & final & Hrun & Hlen & Herrs & Hfinal & Hexh).
  assert (Hcount : List.length errs = (k - 1)%nat).
  { destruct (Nat.lt_trichotomy (List.length errs) (k - 1)) as [Hlt | [Heq | Hgt]].
    - destruct (Hfails _ Hlt) as [err Herr].
      rewrite Herr in Hfinal. subst final.
      specialize (Hexh err eq_refl). lia.
    - exact Heq.
    - destruct (nth_error errs (k - 1)) as [err |] eqn:Hnth.
      + rewrite (Herrs _ _ Hnth) in Hok. discriminate.
      + apply nth_error_None in Hnth. lia. }
  rewrite Hcount in Hfinal. rewrite Hok in Hfinal. subst final.
  eexists errs, _. split; [exact Hrun |]. cbn [trace].
  rewrite calls_run. split; [reflexivity | lia].
Qed.

(** C5. If attempt [i] (counted from 0) fails and [i <= maxRetries - 2],
    then in the trace of the run that failed invocation, which has exactly
    [i] invocations before it, is followed at once by the warning, by a timer
    of [baseDelay * 2 ^ i] and then by the invocation of attempt [i + 1]. *)
Theorem backoff_delay_doubles
    (p : Producer Env) maxRetries baseDelay args w (i : nat) err evs :
  Z.of_nat i <= maxRetries - 2 ->
  trace (snd (retryRequest (spy p) maxRetries baseDelay args w))
    = trace w ++ evs ->
  nth_error (calls evs) i = Some (EvCall args (Thrown err)) ->
  exists pre next post,
    evs = pre ++
          [EvCall args (Thrown err);
           EvWarn (retry_message (Z.of_nat i) (baseDelay * 2 ^ Z.of_nat i));
           EvTimeout (baseDelay * 2 ^ Z.of_nat i);
           EvCall args next] ++ post
    /\ List.length (calls pre) = i.
Proof.
  intros Hi Htrace Hnth.
  destruct (retryRequest_run p maxRetries baseDelay args w ltac:(lia))
    as (errs & final & Hrun & Hlen & _ & _ & Hexh).
  rewrite Hrun in Htrace. cbn [snd trace] in Htrace.
  apply app_inv_head in Htrace. subst evs.
  rewrite calls_app, calls_backoff_events in Hnth. cbn in Hnth.
  destruct (Nat.lt_ge_cases i (List.length errs)) as [Hlt | Hge].
  - rewrite nth_error_app1 in Hnth by (now rewrite length_map).
    rewrite nth_error_map in Hnth.
    destruct (nth_error errs i) as [err0 |] eqn:Herr; [| discriminate].
    injection Hnth as ->.
    apply nth_error_split in Herr as (errs1 & errs2 & -> & Hlen1).
    rewrite backoff_events_app, Hlen1. cbn [backoff_events Z.add].
    exists (backoff_events baseDelay args 0 errs1).
    destruct errs2 as [| err2 errs2].
    + exists final, []. split.
      * rewrite <- app_assoc. reflexivity.
      * now rewrite calls_backoff_events, length_map.
    + exists (Thrown err2). eexists. split.
      * rewrite <- app_assoc. cbn [backoff_events app]. reflexivity.
      * now rewrite calls_backoff_events, length_map.
  - rewrite nth_error_app2 in Hnth by (now rewrite length_map).
    rewrite length_map in Hnth.
    destruct (i - List.length errs)%nat as [| d] eqn:Hd; cbn in Hnth.
    + injection Hnth as ->. specialize (Hexh err eq_refl). lia.
    + destruct d; discriminate.
Qed.

Lemma in_backoff_events baseDelay args attempt errs args' r :
  In (EvCall args' r) (backoff_events baseDelay args attempt errs) ->
  args' = args.
Proof.
  revert attempt. induction errs as [| err errs IH]; intros attempt; cbn.
  - tauto.
  - intros [H | [H | [H | H]]]; try discriminate.
    + now injection H.
    + eauto.
Qed.

(** C10. Every invocation of the base producer made by a call of the retry
    wrapper receives the argument list of that call, and with
    [maxRetries >= 1] there is such an invocation; every invocation made by
    a call of the cache wrapper receives the argument list of that call, and
    on a miss there is exactly one. *)
Theorem wrappers_forward_arguments
    (p : Producer Env) maxRetries baseDelay ttl args slot w :
  (exists evs,
     trace (snd (retryRequest (spy p) maxRetries baseDelay args w))
       = trace w ++ evs
     /\ (forall args' r, In (EvCall args' r) evs -> args' = args)
     /\ (1 <= maxRetries -> exists r, In (EvCall args r) evs))
  /\
  (exists evs,
     trace (snd (snd (cacheRequest (spy p) ttl args (slot, w))))
       = trace w ++ evs
     /\ (forall args' r, In (EvCall args' r) evs -> args' = args)
     /\ (fresh ttl (cache slot) (timestamp slot) (date_now (host w)) = false ->
         exists r, calls evs = [EvCall args r])).
Proof.
  split.
  - destruct (Z_lt_le_dec maxRetries 1) as [Hlow | Hmax].
    + exists []. rewrite retryRequest_skips_loop by lia.
      cbn. rewrite app_nil_r. split; [reflexivity |].
      split; [tauto | lia].
    + destruct (retryRequest_run p maxRetries baseDelay args w Hmax)
        as (errs & final & Hrun & _).
      rewrite Hrun. cbn [snd trace]. eexists. split; [reflexivity |]. split.
      * intros args' r Hin. apply in_app_or in Hin as [Hin | [Hin | []]].
        -- eapply in_backoff_events; eauto.
        -- now injection Hin.
      * intros _. exists final. apply in_or_app. right. now left.
  - rewrite cacheRequest_step. cbv zeta.
    destruct (fresh ttl (cache slot) (timestamp slot) (date_now (host w))).
    + cbn. rewrite <- app_assoc. eexists. split; [reflexivity |].
      split; [| discriminate].
      intros args' r [H | [H | []]]; discriminate.
    + unfold spy. cbn [emit host trace].
      destruct (p args (host w)) as [[result | err] s1]; cbn;
        rewrite <- app_assoc; (eexists; split; [reflexivity |]); split;
        try (intros args' r [H | [H | []]];
             [discriminate | now injection H]);
        intros _; eexists; reflexivity.
Qed.

(** ** The cache wrapper *)

(** Where the cache does serve.  After a call that reached the producer and
    returned a truthy value [v], a second call whose clock reading is less
    than [ttl] after the first call's returns [v] and does not invoke the
    producer: the first call's invocation is still the only one recorded. *)
Theorem truthy_result_is_served_within_ttl
    (p : Producer Env) ttl args args' slot w v :
  truthy v = true ->
  second_call_hits p ttl args args' slot w v.
Proof.
  intros Hv slot1 w1 Hmiss Hfirst s2 Hsoon.
  rewrite cacheRequest_step in Hfirst. cbv zeta in Hfirst.
  rewrite Hmiss in Hfirst. unfold spy in Hfirst. cbn [emit host trace] in Hfirst.
  destruct (p args (host w)) as [[result | err] s1]; [| discriminate].
  injection Hfirst as -> <- <-.
  rewrite cacheRequest_step. cbv zeta. cbn [host cache timestamp].
  unfold fresh. rewrite Hv. cbn [andb].
  apply Z.ltb_lt in Hsoon. rewrite Hsoon.
  eexists _, _. split; [reflexivity |].
  unfold emit. cbn [trace]. rewrite !calls_app. cbn.
  now rewrite !app_nil_r.
Qed.

(** C7, with the clock made explicit.  A call made when the slot holds no
    entry, or when the entry's age [now - timestamp] is at least [ttl],
    invokes the producer exactly once and on success overwrites value and
    timestamp.  With [ttl = 0] this is every call whose clock reading is not
    earlier than the stored timestamp; a reading earlier than that makes the
    age negative, and the entry is served. *)
Theorem stale_or_absent_entry_is_refreshed
    (p : Producer Env) ttl args slot w :
  (truthy (cache slot) = false \/ ttl <= date_now (host w) - timestamp slot ->
   refreshes p ttl args slot w)
  /\ (timestamp slot <= date_now (host w) -> refreshes p 0 args slot w).
Proof.
  assert (Hgen : forall ttl0,
             fresh ttl0 (cache slot) (timestamp slot) (date_now (host w)) = false ->
             refreshes p ttl0 args slot w).
  { intros ttl0 Hmiss. unfold refreshes. rewrite cacheRequest_step. cbv zeta.
    rewrite Hmiss. unfold spy. cbn [emit host trace].
    destruct (p args (host w)) as [[result | err] s1]; cbn;
      now rewrite <- app_assoc. }
  split.
  - intros [Habsent | Hold]; apply Hgen; unfold fresh.
    + now rewrite Habsent.
    + apply Z.ltb_ge in Hold. rewrite Hold. apply andb_false_r.
  - intros Hclock. apply Hgen. unfold fresh.
    replace (date_now (host w) - timestamp slot <? 0) with false
      by (symmetry; apply Z.ltb_ge; lia).
    apply andb_false_r.
Qed.

(** C4. When a refresh fails, the caller receives the very error the
    wrapped function raised, the world is the one the wrapped function left,
    and the slot is the one the call started with. *)
Theorem failed_refresh_keeps_slot_and_error
    (fn : AsyncFn Env) ttl args slot w err w1 :
  fresh ttl (cache slot) (timestamp slot) (date_now (host w)) = false ->
  fn args (emit (EvNow (date_now (host w))) w) = (Thrown err, w1) ->
  cacheRequest fn ttl args (slot, w) = (Thrown err, (slot, w1)).
Proof.
  intros Hmiss Hfn. rewrite cacheRequest_step. cbv zeta.
  now rewrite Hmiss, Hfn.
Qed.

(** ** The composition *)

(** C3. Every invocation of [enhanced] begins by reading the clock: that
    event precedes everything else the invocation does.  If the entry is
    fresh, the cached value is returned, the slot and the host state are
    untouched, and the rest of the trace has no invocation of the base
    producer and no timer.  Otherwise the rest is a run of the retry wrapper
    started after the clock was read. *)
Theorem enhanced_checks_cache_before_retrying
    (base : Producer Env) args slot w :
  exists r slot' s' evs,
    enhanced base args (slot, w) =
      (r, (slot', {| host := s';
                     trace := trace w ++ EvNow (date_now (host w)) :: evs |}))
    /\ (fresh default_ttl (cache slot) (timestamp slot) (date_now (host w)) = true ->
        r = Returned (cache slot) /\ slot' = slot /\ s' = host w
        /\ calls evs = [] /\ timeouts evs = [])
    /\ (fresh default_ttl (cache slot) (timestamp slot) (date_now (host w)) = false ->
        retryRequest (spy base) default_maxRetries default_baseDelay args
          (emit (EvNow (date_now (host w))) w)
        = (r, {| host := s';
                 trace := trace w ++ EvNow (date_now (host w)) :: evs |})).
Proof.
  unfold enhanced. rewrite cacheRequest_step. cbv zeta.
  destruct (fresh default_ttl (cache slot) (timestamp slot) (date_now (host w))).
  - eexists _, _, _, [EvLog _]. split.
    + unfold emit. cbn [host trace]. rewrite <- app_assoc. reflexivity.
    + split; [| discriminate]. intros _. repeat split.
  - destruct (retryRequest_run base default_maxRetries default_baseDelay args
                (emit (EvNow (date_now (host w))) w))
      as (errs & final & Hrun & _); [unfold default_maxRetries; lia |].
    rewrite Hrun. cbn [emit host trace]. rewrite <- app_assoc. cbn [app].
    destruct final as [v | err]; cbn [retry_result];
      (eexists _, _, _, _; split; [reflexivity |]);
      (split; [discriminate | intros _; reflexivity]).
Qed.

(** * Further properties of the retry wrapper *)

Lemma timeouts_app evs1 evs2 :
  timeouts (evs1 ++ evs2) = timeouts evs1 ++ timeouts evs2.
Proof. apply filter_app. Qed.

Lemma warnings_app evs1 evs2 :
  warnings (evs1 ++ evs2) = warnings evs1 ++ warnings evs2.
Proof. apply filter_app. Qed.

Lemma total_delay_app evs1 evs2 :
  total_delay (evs1 ++ evs2) = total_delay evs1 + total_delay evs2.
Proof.
  induction evs1 as [| ev evs1 IH]; [reflexivity |].
  destruct ev; cbn [app total_delay]; rewrite IH; lia.
Qed.

Lemma timeouts_backoff_events baseDelay args attempt errs :
  timeouts (backoff_events baseDelay args attempt errs) =
  map (fun j => EvTimeout (baseDelay * 2 ^ (attempt + Z.of_nat j)))
      (seq 0 (List.length errs)).
Proof.
  revert attempt. unfold timeouts.
  induction errs as [| err errs IH]; intros attempt; [reflexivity |].
  cbn [backoff_events filter is_timeout List.length seq map].
  rewrite IH, <- seq_shift, map_map, Z.add_0_r. f_equal.
  apply map_ext. intros j. do 3 f_equal. lia.
Qed.

Lemma warnings_backoff_events baseDelay args attempt errs :
  warnings (backoff_events baseDelay args attempt errs) =
  map (fun j => EvWarn (retry_message (attempt + Z.of_nat j)
                          (baseDelay * 2 ^ (attempt + Z.of_nat j))))
      (seq 0 (List.length errs)).
Proof.
  revert attempt. unfold warnings.
  induction errs as [| err errs IH]; intros attempt; [reflexivity |].
  cbn [backoff_events filter is_warning List.length seq map].
  rewrite IH, <- seq_shift, map_map, Z.add_0_r. f_equal.
  apply map_ext. intros j.
  replace (attempt + 1 + Z.of_nat j) with (attempt + Z.of_nat (S j)) by lia.
  reflexivity.
Qed.

Lemma total_delay_backoff_events baseDelay args attempt errs :
  0 <= attempt ->
  total_delay (backoff_events baseDelay args attempt errs) =
  baseDelay * (2 ^ (attempt + Z.of_nat (List.length errs)) - 2 ^ attempt).
Proof.
  revert attempt.
  induction errs as [| err errs IH]; intros attempt Hattempt.
  - cbn. rewrite Z.add_0_r. lia.
  - cbn [backoff_events total_delay List.length].
    rewrite IH by lia.
    replace (attempt + 1 + Z.of_nat (List.length errs))
      with (attempt + Z.of_nat (S (List.length errs))) by lia.
    replace (attempt + 1) with (Z.succ attempt) by lia.
    rewrite Z.pow_succ_r by lia. lia.
Qed.

(** X1. The whole backoff schedule of a run with [maxRetries >= 1]: if the
    producer was invoked [c] times, the timers awaited are exactly
    [baseDelay * 2^0, ..., baseDelay * 2^(c-2)] in this order, and the
    warnings printed are exactly the [c - 1] lines "Retry #1 in ...ms..." to
    "Retry #(c-1) in ...ms..." with the same delays. *)
Theorem retry_backoff_schedule
    (p : Producer Env) maxRetries baseDelay args w :
  1 <= maxRetries ->
  exists evs,
    trace (snd (retryRequest (spy p) maxRetries baseDelay args w))
      = trace w ++ evs
    /\ timeouts evs =
       map (fun j => EvTimeout (baseDelay * 2 ^ Z.of_nat j))
           (seq 0 (List.length (calls evs) - 1))
    /\ warnings evs =
       map (fun j => EvWarn (retry_message (Z.of_nat j)
                               (baseDelay * 2 ^ Z.of_nat j)))
           (seq 0 (List.length (calls evs) - 1)).
Proof.
  intros Hmax.
  destruct (retryRequest_run p maxRetries baseDelay args w Hmax)
    as (errs & final & Hrun & _).
  rewrite Hrun. cbn [snd trace]. eexists. split; [reflexivity |].
  rewrite calls_run, timeouts_app, warnings_app.
  rewrite timeouts_backoff_events, warnings_backoff_events.
  cbn [timeouts warnings filter is_timeout is_warning].
  rewrite !app_nil_r.
  replace (S (List.length errs) - 1)%nat with (List.length errs) by lia.
  split; reflexivity.
Qed.

(** X2. The time a run with [maxRetries >= 1] spends in backoff: with [c]
    invocations of the producer it is [baseDelay * (2^(c-1) - 1)].  For
    [baseDelay >= 0] this is at most [baseDelay * (2^(maxRetries-1) - 1)],
    and a run that ends in the terminal error has spent exactly that. *)
Theorem retry_total_backoff
    (p : Producer Env) maxRetries baseDelay args w :
  1 <= maxRetries ->
  exists evs,
    trace (snd (retryRequest (spy p) maxRetries baseDelay args w))
      = trace w ++ evs
    /\ total_delay evs =
       baseDelay * (2 ^ (Z.of_nat (List.length (calls evs)) - 1) - 1)
    /\ (0 <= baseDelay ->
        total_delay evs <= baseDelay * (2 ^ (maxRetries - 1) - 1))
    /\ (forall err,
          fst (retryRequest (spy p) maxRetries baseDelay args w) = Thrown err ->
          total_delay evs = baseDelay * (2 ^ (maxRetries - 1) - 1)).
Proof.
  intros Hmax.
  destruct (retryRequest_run p maxRetries baseDelay args w Hmax)
    as (errs & final & Hrun & Hlen & _ & _ & Hexh).
  rewrite Hrun. cbn [fst snd trace]. eexists. split; [reflexivity |].
  rewrite calls_run, total_delay_app, total_delay_backoff_events by lia.
  cbn [total_delay].
  replace (Z.of_nat (S (List.length errs)) - 1)
    with (0 + Z.of_nat (List.length errs)) by lia.
  change (2 ^ 0) with 1.
  split; [lia |]. split.
  - intros Hdelay.
    assert (2 ^ (0 + Z.of_nat (List.length errs)) <= 2 ^ (maxRetries - 1))
      by (apply Z.pow_le_mono_r; lia).
    nia.
  - intros err Hthrown.
    destruct final as [v | err0]; [discriminate |].
    rewrite (Hexh err0 eq_refl). cbn [Z.add]. lia.
Qed.

(** A wrapped function of any kind that fails on every call, with an error
    and a piece of trace related by [R], and invokes the base producer [k]
    times per call: the loop calls it once per remaining attempt and ends
    with the terminal error built from the error of its last call. *)
Lemma retry_loop_all_fail (fn : AsyncFn Env)
    (R : JsError -> list Event -> Prop) (k : nat)
    maxRetries baseDelay args :
  (forall w, exists err w' evs,
      fn args w = (Thrown err, w')
      /\ trace w' = trace w ++ evs
      /\ R err evs
      /\ List.length (calls evs) = k) ->
  forall (n : nat) attempt w,
    Z.to_nat (maxRetries - attempt) = n ->
    attempt < maxRetries ->
    exists err w' evs last,
      retry_loop fn maxRetries baseDelay args attempt w =
        (Thrown (mkError (exhausted_message maxRetries err)), w')
      /\ trace w' = trace w ++ evs ++ last
      /\ R err last
      /\ List.length (calls (evs ++ last)) = (n * k)%nat.
Proof.
  intros Hfn. induction n as [| n IH]; intros attempt w Hn Hlt; [lia |].
  rewrite retry_loop_step.
  apply Z.ltb_lt in Hlt as Hltb. rewrite Hltb.
  destruct (Hfn w) as (err & w1 & evs1 & Hcall & Htrace & HR & Hcount).
  rewrite Hcall.
  destruct (attempt =? maxRetries - 1) eqn:Hlast.
  - apply Z.eqb_eq in Hlast. exists err, w1, [], evs1.
    repeat split; auto. cbn [app]. rewrite Hcount.
    replace n with 0%nat by lia. lia.
  - apply Z.eqb_neq in Hlast.
    destruct (IH (attempt + 1) (backed_off baseDelay attempt w1))
      as (err' & w' & evs' & last & Hrun & Htrace' & HR' & Hcount');
      [lia | lia |].
    exists err', w',
      (evs1 ++ [EvWarn (retry_message attempt (baseDelay * 2 ^ attempt));
                EvTimeout (baseDelay * 2 ^ attempt)] ++ evs'),
      last.
    repeat split; auto.
    + rewrite Htrace'. cbn [backed_off trace]. rewrite Htrace.
      now rewrite <- !app_assoc.
    + rewrite <- !app_assoc. rewrite calls_app, length_app, Hcount.
      rewrite (calls_app [_; _]). cbn [calls filter is_call app].
      fold (calls (evs' ++ last)). rewrite Hcount'. lia.
Qed.

(** X3. Two retry wrappers, one around the other, around a producer that
    always fails: the producer is invoked [inner * outer] times, and the
    error the caller gets is the outer terminal error whose cause is the
    inner terminal error whose cause is the failure of the last invocation
    of the producer, which is the last event of the run. *)
Theorem nested_retries_multiply
    (p : Producer Env) inner innerDelay outer outerDelay args w :
  1 <= inner ->
  1 <= outer ->
  always_fails p ->
  exists err evs w',
    retryRequest (retryRequest (spy p) inner innerDelay) outer outerDelay
      args w
    = (Thrown (mkError (exhausted_message outer
                          (mkError (exhausted_message inner err)))), w')
    /\ trace w' = trace w ++ evs ++ [EvCall args (Thrown err)]
    /\ Z.of_nat (List.length (calls (evs ++ [EvCall args (Thrown err)])))
       = inner * outer.
Proof.
  intros Hinner Houter Hfail.
  destruct (retry_loop_all_fail
              (retryRequest (spy p) inner innerDelay)
              (fun e last =>
                 exists err pre,
                   e = mkError (exhausted_message inner err)
                   /\ last = pre ++ [EvCall args (Thrown err)])
              (Z.to_nat inner) outer outerDelay args) with
    (n := Z.to_nat outer) (attempt := 0) (w := w)
    as (e & w' & evs & last & Hrun & Htrace & (err & pre & -> & ->) & Hcount).
  - intros w0.
    destruct (retryRequest_run p inner innerDelay args w0 Hinner)
      as (errs & final & Hrun & _ & _ & Hfinal & Hexh).
    destruct (Hfail args (host_at p innerDelay args 0 (List.length errs) (host w0)))
      as [err Herr].
    unfold attempt_outcome in Hfinal. rewrite Herr in Hfinal. subst final.
    specialize (Hexh err eq_refl).
    eexists _, _, _. split; [exact Hrun |]. cbn [trace].
    split; [reflexivity |]. split.
    + exists err, (backoff_events innerDelay args 0 errs). now split.
    + rewrite calls_run. lia.
  - f_equal. lia.
  - lia.
  - exists err, (evs ++ pre), w'. split; [exact Hrun |].
    rewrite <- !app_assoc. split; [exact Htrace |].
    rewrite Hcount. nia.
Qed.

(** * Further properties of the cache wrapper *)

Lemma miss_refreshes (p : Producer Env) ttl args slot w :
  fresh ttl (cache slot) (timestamp slot) (date_now (host w)) = false ->
  refreshes p ttl args slot w.
Proof.
  intros Hmiss. unfold refreshes. rewrite cacheRequest_step. cbv zeta.
  rewrite Hmiss. unfold spy. cbn [emit host trace].
  destruct (p args (host w)) as [[result | err] s1]; cbn;
    now rewrite <- app_assoc.
Qed.

(** A slot that is not fresh does not become fresh as the clock advances. *)
Lemma stale_stays_stale ttl c t now now' :
  fresh ttl c t now = false -> now <= now' -> fresh ttl c t now' = false.
Proof.
  unfold fresh. intros Hstale Hlater.
  apply andb_false_iff in Hstale as [Hc | Hage].
  - now rewrite Hc.
  - apply Z.ltb_ge in Hage.
    replace (now' - t <? ttl) with false by (symmetry; apply Z.ltb_ge; lia).
    apply andb_false_r.
Qed.

(** X4. A call of the cache wrapper that ends in an error was a refresh, and
    it leaves the entry as stale as it found it: the next call, made with a
    clock reading that is not earlier, invokes the producer again (exactly
    once), whatever its arguments. *)
Theorem failed_refresh_is_retried_by_next_call
    (p : Producer Env) ttl args args' slot w err slot1 w1 s2 :
  cacheRequest (spy p) ttl args (slot, w) = (Thrown err, (slot1, w1)) ->
  date_now (host w) <= date_now s2 ->
  refreshes p ttl args' slot1 {| host := s2; trace := trace w1 |}.
Proof.
  intros Hcall Hlater.
  rewrite cacheRequest_step in Hcall. cbv zeta in Hcall.
  destruct (fresh ttl (cache slot) (timestamp slot) (date_now (host w)))
    eqn:Hfresh; [discriminate |].
  destruct (spy p args (emit (EvNow (date_now (host w))) w))
    as [[result | err0] w0]; [discriminate |].
  injection Hcall as _ <- _.
  apply miss_refreshes. cbn [host].
  eapply stale_stays_stale; eauto.
Qed.

(** X5. The entry is dated with the clock reading taken before the producer
    is awaited.  If a successful refresh takes [ttl] milliseconds or more,
    the entry it stores is already stale: the very next call, made in the
    world this call left, invokes the producer again. *)
Theorem slow_refresh_is_stale_on_arrival
    (p : Producer Env) ttl args args' slot w v slot1 w1 :
  fresh ttl (cache slot) (timestamp slot) (date_now (host w)) = false ->
  cacheRequest (spy p) ttl args (slot, w) = (Returned v, (slot1, w1)) ->
  ttl <= date_now (host w1) - date_now (host w) ->
  slot1 = {| cache := v; timestamp := date_now (host w) |}
  /\ refreshes p ttl args' slot1 w1.
Proof.
  intros Hmiss Hcall Hslow.
  rewrite cacheRequest_step in Hcall. cbv zeta in Hcall.
  rewrite Hmiss in Hcall.
  destruct (spy p args (emit (EvNow (date_now (host w))) w))
    as [[result | err0] w0]; [| discriminate].
  injection Hcall as -> <- <-.
  split; [reflexivity |].
  apply miss_refreshes. cbn [cache timestamp]. unfold fresh.
  replace (date_now (host w0) - date_now (host w) <? ttl) with false
    by (symmetry; apply Z.ltb_ge; lia).
  apply andb_false_r.
Qed.

(** X6. Being served does not renew an entry: a hit leaves value and
    timestamp as they are, so a later call whose clock reading is [ttl] or
    more past the stored timestamp invokes the producer, however recent the
    last hit was. *)
Theorem hit_does_not_renew_entry
    (p : Producer Env) ttl args args' slot w r slot1 w1 s2 :
  fresh ttl (cache slot) (timestamp slot) (date_now (host w)) = true ->
  cacheRequest (spy p) ttl args (slot, w) = (r, (slot1, w1)) ->
  ttl <= date_now s2 - timestamp slot ->
  slot1 = slot
  /\ refreshes p ttl args' slot1 {| host := s2; trace := trace w1 |}.
Proof.
  intros Hhit Hcall Hold.
  rewrite cacheRequest_step in Hcall. cbv zeta in Hcall.
  rewrite Hhit in Hcall. injection Hcall as _ <- _.
  split; [reflexivity |].
  apply miss_refreshes. cbn [host]. unfold fresh.
  replace (date_now s2 - timestamp slot <? ttl) with false
    by (symmetry; apply Z.ltb_ge; lia).
  apply andb_false_r.
Qed.

(** * The program: [fetchData], [enhanced] over it, and [main] *)

Section ProgramProperties.

Variable fetch : string -> M Env (Response Env).
Variable inspect : JsValue -> string.
Variable element0 : JsValue -> JsValue.
Variable type_error_message : JsValue -> string.

Local Abbreviation fetchData := (fetchData fetch).
Local Abbreviation server_refuses := (server_refuses fetch).
Local Abbreviation main :=
  (main date_now set_timeout fetch inspect element0 type_error_message).

Lemma fetchData_refused code args s :
  server_refuses code ->
  exists s',
    fetchData args s = (Thrown (mkError (http_error_message code)), s').
Proof.
  intros Hserver. destruct (Hserver s) as (res & s' & Hfetch & Hok & Hstatus).
  exists s'. unfold fetchData, bind.
  now rewrite Hfetch, Hok, Hstatus.
Qed.

Lemma enhanced_first_try (base : Producer Env) args slot w v s1 :
  fresh default_ttl (cache slot) (timestamp slot) (date_now (host w)) = false ->
  base args (host w) = (Returned v, s1) ->
  enhanced base args (slot, w) =
    (Returned v,
     ({| cache := v; timestamp := date_now (host w) |},
      {| host := s1;
         trace := trace w ++ [EvNow (date_now (host w));
                              EvCall args (Returned v)] |})).
Proof.
  intros Hmiss Hbase. unfold enhanced.
  rewrite cacheRequest_step. cbv zeta. rewrite Hmiss.
  unfold retryRequest. rewrite retry_loop_step.
  change (0 <? default_maxRetries) with true. cbv iota.
  unfold spy. cbn [emit host trace]. rewrite Hbase.
  now rewrite <- app_assoc.
Qed.

Lemma enhanced_hit (base : Producer Env) args slot w :
  fresh default_ttl (cache slot) (timestamp slot) (date_now (host w)) = true ->
  enhanced base args (slot, w) =
    (Returned (cache slot),
     (slot,
      {| host := host w;
         trace := trace w ++ [EvNow (date_now (host w));
                              EvLog "⚡ Serving from cache..."] |})).
Proof.
  intros Hhit. unfold enhanced.
  rewrite cacheRequest_step. cbv zeta. rewrite Hhit.
  unfold emit. cbn [host trace]. now rewrite <- app_assoc.
Qed.

Lemma retry_against_refusing_server code args w :
  server_refuses code ->
  let refusal := mkError (http_error_message code) in
  exists s',
    retryRequest (spy fetchData) default_maxRetries default_baseDelay args w =
      (Thrown (mkError (exhausted_message default_maxRetries refusal)),
       {| host := s';
          trace := trace w ++
            [EvCall args (Thrown refusal);
             EvWarn (retry_message 0 300); EvTimeout 300;
             EvCall args (Thrown refusal);
             EvWarn (retry_message 1 600); EvTimeout 600;
             EvCall args (Thrown refusal)] |}).
Proof.
  intros Hserver refusal.
  destruct (retryRequest_run fetchData default_maxRetries default_baseDelay
              args w)
    as (errs & final & Hrun & _ & Herrs & Hfinal & Hexh);
    [unfold default_maxRetries; lia |].
  assert (Hall : forall j, attempt_outcome fetchData default_baseDelay args j
                             (host w) = Thrown refusal).
  { intros j. unfold attempt_outcome.
    destruct (fetchData_refused code args
                (host_at fetchData default_baseDelay args 0 j (host w))
                Hserver)
      as [s' Hs']. now rewrite Hs'. }
  rewrite Hall in Hfinal. subst final.
  specialize (Hexh refusal eq_refl). unfold default_maxRetries in Hexh.
  destruct errs as [| e1 [| e2 [| e3 errs]]]; cbn [List.length] in Hexh;
    try lia.
  pose proof (Herrs 0%nat e1 eq_refl) as H1. rewrite Hall in H1.
  pose proof (Herrs 1%nat e2 eq_refl) as H2. rewrite Hall in H2.
  injection H1 as <-. injection H2 as <-.
  rewrite Hrun. eexists. reflexivity.
Qed.

(** X7. Against a server that answers every request with the same non-ok
    status, a call of [enhanced] that has to refresh makes exactly three
    requests, waits 300 and then 600 milliseconds between them, and fails
    with "Failed after 3 attempts: HTTP error! Status: <code>"; the cache
    slot is left as it was. *)
Theorem enhanced_reports_refusing_server code args slot w :
  server_refuses code ->
  fresh default_ttl (cache slot) (timestamp slot) (date_now (host w)) = false ->
  let refusal := mkError (http_error_message code) in
  exists s',
    enhanced fetchData args (slot, w) =
      (Thrown (mkError ("Failed after 3 attempts: HTTP error! Status: "
                        ++ show code)%string),
       (slot,
        {| host := s';
           trace := trace w ++
             [EvNow (date_now (host w));
              EvCall args (Thrown refusal);
              EvWarn (retry_message 0 300); EvTimeout 300;
              EvCall args (Thrown refusal);
              EvWarn (retry_message 1 600); EvTimeout 600;
              EvCall args (Thrown refusal)] |})).
Proof.
  intros Hserver Hmiss refusal.
  unfold enhanced.
  rewrite cacheRequest_step. cbv zeta. rewrite Hmiss.
  destruct (retry_against_refusing_server code args
              (emit (EvNow (date_now (host w))) w) Hserver)
    as [s' Hrun].
  rewrite Hrun. exists s'. cbn [emit host trace].
  rewrite <- app_assoc. reflexivity.
Qed.

(** X9. When the server refuses every request, [main] stops at its first
    call: it makes the three requests of that call and no other, prints none
    of the later headings, writes the one line "❌ Error: Failed after 3
    attempts: HTTP error! Status: <code>" to [console.error], and resolves.
    The cache slot stays empty. *)
Theorem main_stops_at_first_failure code lines w :
  server_refuses code ->
  let refusal := mkError (http_error_message code) in
  exists s',
    main (lines, (initial_slot, w)) =
      (Returned tt,
       (lines ++ [("❌ Error: Failed after 3 attempts: HTTP error! Status: "
                   ++ show code)%string],
        (initial_slot,
         {| host := s';
            trace := trace w ++
              [EvLog "First call:";
               EvNow (date_now (host w));
               EvCall [] (Thrown refusal);
               EvWarn (retry_message 0 300); EvTimeout 300;
               EvCall [] (Thrown refusal);
               EvWarn (retry_message 1 600); EvTimeout 600;
               EvCall [] (Thrown refusal)] |}))).
Proof.
  intros Hserver refusal.
  destruct (retry_against_refusing_server code []
              (emit (EvNow (date_now (host w)))
                 (emit (EvLog "First call:") w)) Hserver)
    as [s' Hrun].
  exists s'.
  unfold main, try_catch, log. unfold bind at 1.
  unfold in_program at 1, in_world at 1, console_log at 1. cbn [fst snd].
  unfold bind at 1, in_program at 1. cbn [fst snd].
  unfold enhanced. rewrite cacheRequest_step. cbv zeta.
  cbn [initial_slot cache timestamp emit host trace fresh truthy andb].
  cbn [emit host trace] in Hrun. rewrite Hrun.
  unfold console_error. cbn [fst snd message].
  rewrite <- !app_assoc. reflexivity.
Qed.

(** X10. The run the program is written for.  The first request succeeds
    with a truthy value before five seconds have passed; the six-second timer
    takes the clock five seconds or more past the first call's reading; the
    third call's request succeeds with a value that has a property "0".
    Then [main] makes exactly two requests: the second call is served from
    the cache, the third fetches again and replaces the entry; nothing is
    written to [console.error]. *)
Theorem main_fetches_twice lines t s0 s1 s3 v1 v3 :
  fetchData [] s0 = (Returned v1, s1) ->
  truthy v1 = true ->
  date_now s1 - date_now s0 < default_ttl ->
  let s2 := set_timeout 6000 s1 in
  default_ttl <= date_now s2 - date_now s0 ->
  fetchData [] s2 = (Returned v3, s3) ->
  v3 <> JNull ->
  v3 <> JUndefined ->
  main (lines, (initial_slot, {| host := s0; trace := t |})) =
    (Returned tt,
     (lines,
      ({| cache := v3; timestamp := date_now s2 |},
       {| host := s3;
          trace := t ++
            [EvLog "First call:";
             EvNow (date_now s0);
             EvCall [] (Returned v1);
             EvLog ("✅ Success:" ++ " " ++ inspect (element0 v1))%string;
             EvLog (newline ++ "Second call (within 5s, should use cache):")%string;
             EvNow (date_now s1);
             EvLog "⚡ Serving from cache...";
             EvLog ("✅ Success:" ++ " " ++ inspect (element0 v1))%string;
             EvLog (newline ++ "Waiting 6 seconds...")%string;
             EvTimeout 6000;
             EvLog (newline ++ "Third call (after 5s, should fetch again):")%string;
             EvNow (date_now s2);
             EvCall [] (Returned v3);
             EvLog ("✅ Success:" ++ " " ++ inspect (element0 v3))%string] |}))).
Proof.
  intros Hfirst Hv1 Hsoon s2 Hlate Hthird Hnull Hundef.
  assert (Hindex : forall v st,
             v <> JNull -> v <> JUndefined ->
             index0 element0 type_error_message v st
             = (Returned (element0 v), st :> list string * (CacheSlot * World Env))).
  { intros v st Hn Hu. destruct v; try reflexivity; congruence. }
  assert (Hv1n : v1 <> JNull) by (intros ->; discriminate).
  assert (Hv1u : v1 <> JUndefined) by (intros ->; discriminate).
  unfold main, try_catch, log_value, log.
  unfold bind, in_program, in_world, console_log, sleep. cbn [fst snd].
  rewrite (enhanced_first_try fetchData [] initial_slot _ v1 s1);
    [| reflexivity | exact Hfirst ].
  cbn [fst snd emit host trace]. rewrite Hindex by assumption.
  cbn [fst snd emit host trace].
  rewrite enhanced_hit.
  2:{ cbn [cache timestamp host emit]. unfold fresh. rewrite Hv1. cbn [andb].
      now apply Z.ltb_lt. }
  cbn [fst snd emit host trace cache]. rewrite Hindex by assumption.
  cbn [fst snd emit host trace].
  rewrite (enhanced_first_try fetchData [] _ _ v3 s3).
  2:{ cbn [cache timestamp host emit]. unfold fresh.
      replace (date_now (set_timeout 6000 s1) - date_now s0 <? default_ttl)
        with false by (symmetry; apply Z.ltb_ge; exact Hlate).
      apply andb_false_r. }
  2:{ exact Hthird. }
  cbn [fst snd emit host trace]. rewrite Hindex by assumption.
  unfold emit. cbn [fst snd host trace].
  rewrite <- !app_assoc. reflexivity.
Qed.

(** X11. When the first request succeeds with [null] or [undefined],
    reading [data1[0]] raises: [main] makes that one request, prints no
    success line, writes "❌ Error:" with the message of the [TypeError] to
    [console.error] and resolves without a second or third call. *)
Theorem main_stops_on_missing_data lines t s0 s1 v :
  fetchData [] s0 = (Returned v, s1) ->
  v = JNull \/ v = JUndefined ->
  main (lines, (initial_slot, {| host := s0; trace := t |})) =
    (Returned tt,
     (lines ++ [("❌ Error:" ++ " " ++ type_error_message v)%string],
      ({| cache := v; timestamp := date_now s0 |},
       {| host := s1;
          trace := t ++ [EvLog "First call:";
                         EvNow (date_now s0);
                         EvCall [] (Returned v)] |}))).
Proof.
  intros Hfirst Hmissing.
  unfold main, try_catch, log_value, log.
  unfold bind, in_program, in_world, console_log. cbn [fst snd].
  rewrite (enhanced_first_try fetchData [] initial_slot _ v s1);
    [| reflexivity | exact Hfirst ].
  cbn [fst snd emit host trace].
  destruct Hmissing as [-> | ->]; cbn [index0 throw console_error fst snd message];
    rewrite <- !app_assoc; reflexivity.
Qed.

End ProgramProperties.

End Properties.

(** * The theorems at work on the test host *)

Section OnTheTestHost.

Import TestHost.

Local Abbreviation retryRequest := (retryRequest timer).
Local Abbreviation cacheRequest := (cacheRequest clock).
Local Abbreviation enhanced := (enhanced clock timer).

(** C1.  The code departs from it on a falsy result.  The producer
    returns [0]; the first call, at clock 1000, stores [0] with timestamp
    1000; the second call comes one millisecond later with [ttl = 5000],
    finds [cache && ...] false because [0] is falsy, and invokes the producer
    a second time. *)
Theorem falsy_result_is_stored_but_not_served :
  cacheRequest (spy (returning (JNumber 0))) 5000 [] (initial_slot, start 1000)
  = (Returned (JNumber 0),
     (mkSlot (JNumber 0) 1000,
      {| host := 1001;
         trace := [EvNow 1000; EvCall [] (Returned (JNumber 0))] |}))
  /\ cacheRequest (spy (returning (JNumber 0))) 5000 []
       (mkSlot (JNumber 0) 1000,
        {| host := 1001;
           trace := [EvNow 1000; EvCall [] (Returned (JNumber 0))] |})
     = (Returned (JNumber 0),
        (mkSlot (JNumber 0) 1001,
         {| host := 1002;
            trace := [EvNow 1000; EvCall [] (Returned (JNumber 0));
                      EvNow 1001; EvCall [] (Returned (JNumber 0))] |})).
Proof.
  split.
  - vm_compute. reflexivity.
  - vm_compute. reflexivity.
Qed.

(** The same run against the statement of two consecutive calls: the second
    call does not hit. *)
Lemma falsy_result_is_fetched_again :
  ~ second_call_hits clock (returning (JNumber 0)) 5000 [] []
      initial_slot (start 1000) (JNumber 0).
Proof.
  intros Hhit.
  destruct (Hhit (mkSlot (JNumber 0) 1000)
              {| host := 1001;
                 trace := [EvNow 1000; EvCall [] (Returned (JNumber 0))] |}
              eq_refl eq_refl 1001 ltac:(unfold clock; cbn; lia))
    as (slot2 & w2 & Hrun & Hcalls).
  vm_compute in Hrun. injection Hrun as _ <-.
  discriminate Hcalls.
Qed.

Lemma truthy_result_is_served_within_ttl_witness :
  truthy (JObject 1) = true
  /\ exists slot2 w2,
       cacheRequest (spy (returning (JObject 1))) 5000 []
         (mkSlot (JObject 1) 1000,
          {| host := 3000;
             trace := [EvNow 1000; EvCall [] (Returned (JObject 1))] |})
       = (Returned (JObject 1), (slot2, w2))
       /\ calls (trace w2) = [EvCall [] (Returned (JObject 1))].
Proof.
  split; [reflexivity |].
  apply (truthy_result_is_served_within_ttl clock (returning (JObject 1))
           5000 [] [] initial_slot (start 1000) (JObject 1) eq_refl
           (mkSlot (JObject 1) 1000)
           {| host := 1001;
              trace := [EvNow 1000; EvCall [] (Returned (JObject 1))] |}
           eq_refl eq_refl 3000).
  vm_compute. reflexivity.
Defined.

Lemma retry_exhausts_after_n_failures_witness :
  1 <= 3 /\ always_fails (failing "boom")
  /\ exists evs err w',
       retryRequest (spy (failing "boom")) 3 300 [JNumber 7] (start 0) =
         (Thrown (mkError (exhausted_message 3 err)), w')
       /\ trace w' = trace (start 0) ++ evs
                     ++ [EvCall [JNumber 7] (Thrown err)]
       /\ Z.of_nat (List.length
                      (calls (evs ++ [EvCall [JNumber 7] (Thrown err)]))) = 3
       /\ contains (exhausted_message 3 err) (message err)
       /\ contains (exhausted_message 3 err) (show 3 ++ " attempts")%string
       /\ (3 = 1 -> evs = []).
Proof.
  assert (Hfail : always_fails (failing "boom")).
  { intros args s. eexists. reflexivity. }
  split; [lia |]. split; [exact Hfail |].
  apply (retry_exhausts_after_n_failures timer (failing "boom") 3 300);
    [lia | exact Hfail].
Defined.

Lemma retry_without_budget_returns_undefined_witness :
  0 <= 0
  /\ retryRequest (spy (failing "boom")) 0 300 [] (start 0)
     = (Returned JUndefined, start 0).
Proof.
  split; [lia |].
  apply (retry_without_budget_returns_undefined timer); lia.
Defined.

Lemma retry_attempts_are_bounded_and_ordered_witness :
  1 <= 3
  /\ exists errs final w',
       retryRequest (spy (failing_until 500 (JObject 1))) 3 300 [] (start 0) =
         (retry_result 3 final, w')
       /\ trace w' = trace (start 0) ++ backoff_events 300 [] 0 errs
                     ++ [EvCall [] final]
       /\ Z.of_nat (List.length errs) <= 3 - 1
       /\ (forall err, final = Thrown err -> Z.of_nat (List.length errs) = 3 - 1)
       /\ 1 <= Z.of_nat (List.length (calls (backoff_events 300 [] 0 errs
                                               ++ [EvCall [] final])))
            <= 3.
Proof.
  split; [lia |].
  apply (retry_attempts_are_bounded_and_ordered timer); lia.
Defined.

Lemma retry_returns_kth_success_witness :
  exists errs w',
    retryRequest (spy (failing_until 500 (JObject 1))) 3 300 [] (start 0)
      = (Returned (JObject 1), w')
    /\ trace w' = trace (start 0) ++ backoff_events 300 [] 0 errs
                  ++ [EvCall [] (Returned (JObject 1))]
    /\ List.length (calls (backoff_events 300 [] 0 errs
                             ++ [EvCall [] (Returned (JObject 1))])) = 3%nat.
Proof.
  apply (retry_returns_kth_success timer (failing_until 500 (JObject 1))
           3 300 [] (start 0) 3 (JObject 1)).
  - lia.
  - lia.
  - intros [| [| j]] Hj; [eexists; reflexivity | eexists; reflexivity | lia].
  - reflexivity.
Defined.

Lemma backoff_delay_doubles_witness :
  exists pre next post,
    [EvCall [] (Thrown (mkError "boom"));
     EvWarn "Retry #1 in 300ms..."; EvTimeout 300;
     EvCall [] (Thrown (mkError "boom"));
     EvWarn "Retry #2 in 600ms..."; EvTimeout 600;
     EvCall [] (Thrown (mkError "boom"))]
    = pre ++
      [EvCall [] (Thrown (mkError "boom"));
       EvWarn (retry_message (Z.of_nat 1) (300 * 2 ^ Z.of_nat 1));
       EvTimeout (300 * 2 ^ Z.of_nat 1);
       EvCall [] next] ++ post
    /\ List.length (calls pre) = 1%nat.
Proof.
  apply (backoff_delay_doubles timer (failing "boom") 3 300 [] (start 0) 1).
  - lia.
  - vm_compute. reflexivity.
  - reflexivity.
Defined.

Lemma wrappers_forward_arguments_witness :
  (exists evs,
     trace (snd (retryRequest (spy (failing "boom")) 2 300 [JString "id"]
                   (start 0)))
       = trace (start 0) ++ evs
     /\ (forall args' r, In (EvCall args' r) evs -> args' = [JString "id"])
     /\ (1 <= 2 -> exists r, In (EvCall [JString "id"] r) evs))
  /\
  (exists evs,
     trace (snd (snd (cacheRequest (spy (failing "boom")) 5000 [JString "id"]
                        (initial_slot, start 0))))
       = trace (start 0) ++ evs
     /\ (forall args' r, In (EvCall args' r) evs -> args' = [JString "id"])
     /\ (fresh 5000 (cache initial_slot) (timestamp initial_slot)
           (clock (host (start 0))) = false ->
         exists r, calls evs = [EvCall [JString "id"] r])).
Proof.
  apply (wrappers_forward_arguments clock timer (failing "boom")).
Defined.

(** C7 without the proviso on the clock.  With [ttl = 0], an entry stored
    at 1000 and a clock that reads 995, the age is [-5 < 0]: the entry is
    served and the producer is not invoked. *)
Lemma ttl_zero_serves_when_clock_runs_back :
  cacheRequest (spy (returning (JObject 2))) 0 []
    (mkSlot (JObject 1) 1000, start 995)
  = (Returned (JObject 1),
     (mkSlot (JObject 1) 1000,
      {| host := 995;
         trace := [EvNow 995; EvLog "⚡ Serving from cache..."] |}))
  /\ ~ refreshes clock (returning (JObject 2)) 0 []
        (mkSlot (JObject 1) 1000) (start 995).
Proof.
  split.
  - vm_compute. reflexivity.
  - unfold refreshes. vm_compute. discriminate.
Qed.

Lemma stale_or_absent_entry_is_refreshed_witness :
  refreshes clock (returning (JObject 2)) 5000 []
    (mkSlot (JObject 1) 1000) (start 6000)
  /\ refreshes clock (returning (JObject 2)) 0 []
       (mkSlot (JObject 1) 1000) (start 1000).
Proof.
  split.
  - apply (proj1 (stale_or_absent_entry_is_refreshed clock
                      (returning (JObject 2)) 5000 []
                      (mkSlot (JObject 1) 1000) (start 6000))).
    right. vm_compute. discriminate.
  - apply (proj2 (stale_or_absent_entry_is_refreshed clock
                      (returning (JObject 2)) 5000 []
                      (mkSlot (JObject 1) 1000) (start 1000))).
    vm_compute. discriminate.
Defined.

Lemma failed_refresh_keeps_slot_and_error_witness :
  cacheRequest (retryRequest (spy (failing "boom")) 1 300) 5000 []
    (mkSlot (JObject 1) 1000, start 6000)
  = (Thrown (mkError "Failed after 1 attempts: boom"),
     (mkSlot (JObject 1) 1000,
      {| host := 6001;
         trace := [EvNow 6000; EvCall [] (Thrown (mkError "boom"))] |})).
Proof.
  apply (failed_refresh_keeps_slot_and_error clock
           (retryRequest (spy (failing "boom")) 1 300)).
  - reflexivity.
  - reflexivity.
Defined.

Lemma enhanced_checks_cache_before_retrying_witness :
  exists r slot' s' evs,
    enhanced (failing "boom") [] (mkSlot (JObject 1) 1000, start 2000) =
      (r, (slot', {| host := s'; trace := [] ++ EvNow 2000 :: evs |}))
    /\ r = Returned (JObject 1) /\ slot' = mkSlot (JObject 1) 1000
    /\ s' = 2000 /\ calls evs = [] /\ timeouts evs = [].
Proof.
  destruct (enhanced_checks_cache_before_retrying clock timer
              (failing "boom") [] (mkSlot (JObject 1) 1000) (start 2000))
    as (r & slot' & s' & evs & Hrun & Hhit & _).
  exists r, slot', s', evs. split; [exact Hrun |].
  apply Hhit. reflexivity.
Defined.

Local Abbreviation fetchData := (fetchData (Env := Z)).
Local Abbreviation main := (main clock timer).

Lemma retry_backoff_schedule_witness :
  exists evs,
    trace (snd (retryRequest (spy (failing "boom")) 4 300 [] (start 0)))
      = trace (start 0) ++ evs
    /\ timeouts evs =
       map (fun j => EvTimeout (300 * 2 ^ Z.of_nat j))
           (seq 0 (List.length (calls evs) - 1))
    /\ warnings evs =
       map (fun j => EvWarn (retry_message (Z.of_nat j) (300 * 2 ^ Z.of_nat j)))
           (seq 0 (List.length (calls evs) - 1)).
Proof.
  apply (retry_backoff_schedule timer (failing "boom") 4 300 [] (start 0)).
  lia.
Defined.

Lemma retry_total_backoff_witness :
  exists evs,
    trace (snd (retryRequest (spy (failing_until 500 JNull)) 5 300 []
                  (start 0)))
      = trace (start 0) ++ evs
    /\ total_delay evs =
       300 * (2 ^ (Z.of_nat (List.length (calls evs)) - 1) - 1)
    /\ (0 <= 300 -> total_delay evs <= 300 * (2 ^ (5 - 1) - 1))
    /\ (forall err,
          fst (retryRequest (spy (failing_until 500 JNull)) 5 300 []
                 (start 0)) = Thrown err ->
          total_delay evs = 300 * (2 ^ (5 - 1) - 1)).
Proof.
  apply (retry_total_backoff timer (failing_until 500 JNull) 5 300 []
           (start 0)).
  lia.
Defined.

Lemma nested_retries_multiply_witness :
  exists err evs w',
    retryRequest (retryRequest (spy (failing "boom")) 2 100) 3 300
      [] (start 0)
    = (Thrown (mkError (exhausted_message 3
                          (mkError (exhausted_message 2 err)))), w')
    /\ trace w' = trace (start 0) ++ evs ++ [EvCall [] (Thrown err)]
    /\ Z.of_nat (List.length (calls (evs ++ [EvCall [] (Thrown err)])))
       = 2 * 3.
Proof.
  apply (nested_retries_multiply timer (failing "boom") 2 100 3 300 []
           (start 0)).
  - lia.
  - lia.
  - intros args s. eexists. reflexivity.
Defined.

Lemma failed_refresh_is_retried_by_next_call_witness :
  refreshes clock (failing "boom") 5000 [JNumber 1] initial_slot
    {| host := 1500;
       trace := [EvNow 1000; EvCall [] (Thrown (mkError "boom"))] |}.
Proof.
  apply (failed_refresh_is_retried_by_next_call clock (failing "boom") 5000
           [] [JNumber 1] initial_slot (start 1000) (mkError "boom")
           initial_slot
           {| host := 1001;
              trace := [EvNow 1000; EvCall [] (Thrown (mkError "boom"))] |}
           1500).
  - reflexivity.
  - unfold clock. cbn. lia.
Defined.

Lemma slow_refresh_is_stale_on_arrival_witness :
  mkSlot (JObject 1) 1000 = {| cache := JObject 1; timestamp := clock 1000 |}
  /\ refreshes clock (returning (JObject 1)) 1 [] (mkSlot (JObject 1) 1000)
       {| host := 1001;
          trace := [EvNow 1000; EvCall [] (Returned (JObject 1))] |}.
Proof.
  apply (slow_refresh_is_stale_on_arrival clock (returning (JObject 1)) 1
           [] [] initial_slot (start 1000) (JObject 1)
           (mkSlot (JObject 1) 1000)
           {| host := 1001;
              trace := [EvNow 1000; EvCall [] (Returned (JObject 1))] |}).
  - reflexivity.
  - reflexivity.
  - unfold clock. cbn. lia.
Defined.

Lemma hit_does_not_renew_entry_witness :
  mkSlot (JObject 1) 1000 = mkSlot (JObject 1) 1000
  /\ refreshes clock (returning (JObject 2)) 5000 [] (mkSlot (JObject 1) 1000)
       {| host := 6000;
          trace := [EvNow 5999; EvLog "⚡ Serving from cache..."] |}.
Proof.
  apply (hit_does_not_renew_entry clock (returning (JObject 2)) 5000
           [] [] (mkSlot (JObject 1) 1000) (start 5999)
           (Returned (JObject 1)) (mkSlot (JObject 1) 1000)
           {| host := 5999;
              trace := [EvNow 5999; EvLog "⚡ Serving from cache..."] |}
           6000).
  - reflexivity.
  - reflexivity.
  - unfold clock. cbn. lia.
Defined.

Lemma server_503_refuses : server_refuses (server 40 503 JNull) 503.
Proof. intros s. eexists _, _. repeat split. Qed.

Lemma enhanced_reports_refusing_server_witness :
  exists s',
    enhanced (fetchData (server 40 503 JNull)) [] (initial_slot, start 1000) =
      (Thrown (mkError ("Failed after 3 attempts: HTTP error! Status: "
                        ++ show 503)%string),
       (initial_slot,
        {| host := s';
           trace := trace (start 1000) ++
             [EvNow (clock (host (start 1000)));
              EvCall [] (Thrown (mkError (http_error_message 503)));
              EvWarn (retry_message 0 300); EvTimeout 300;
              EvCall [] (Thrown (mkError (http_error_message 503)));
              EvWarn (retry_message 1 600); EvTimeout 600;
              EvCall [] (Thrown (mkError (http_error_message 503)))] |})).
Proof.
  apply (enhanced_reports_refusing_server clock timer (server 40 503 JNull)
           503 [] initial_slot (start 1000) server_503_refuses).
  reflexivity.
Defined.

Lemma main_stops_at_first_failure_witness :
  exists s',
    main (server 40 503 JNull) render first_post no_property
      ([], (initial_slot, start 1000)) =
      (Returned tt,
       ([] ++ [("❌ Error: Failed after 3 attempts: HTTP error! Status: "
                ++ show 503)%string],
        (initial_slot,
         {| host := s';
            trace := trace (start 1000) ++
              [EvLog "First call:";
               EvNow (clock (host (start 1000)));
               EvCall [] (Thrown (mkError (http_error_message 503)));
               EvWarn (retry_message 0 300); EvTimeout 300;
               EvCall [] (Thrown (mkError (http_error_message 503)));
               EvWarn (retry_message 1 600); EvTimeout 600;
               EvCall [] (Thrown (mkError (http_error_message 503)))] |}))).
Proof.
  apply (main_stops_at_first_failure clock timer (server 40 503 JNull)
           render first_post no_property 503 [] (start 1000)
           server_503_refuses).
Defined.

Lemma main_fetches_twice_witness :
  exists st,
    main (server 40 200 (JObject 7)) render first_post no_property
      ([], (initial_slot, start 1000)) = (Returned tt, st)
    /\ fst st = []
    /\ fst (snd st) = mkSlot (JObject 7) 7040
    /\ List.length (calls (trace (snd (snd st)))) = 2%nat.
Proof.
  eexists. split.
  - apply (main_fetches_twice clock timer (server 40 200 (JObject 7))
             render first_post no_property [] [] 1000 1040 7080
             (JObject 7) (JObject 7)).
    + reflexivity.
    + reflexivity.
    + unfold clock, default_ttl. lia.
    + unfold clock, timer, default_ttl. lia.
    + reflexivity.
    + discriminate.
    + discriminate.
  - repeat split.
Defined.

Lemma main_stops_on_missing_data_witness :
  main (server 40 200 JNull) render first_post no_property
    ([], (initial_slot, start 1000)) =
    (Returned tt,
     ([] ++ [("❌ Error:" ++ " " ++ no_property JNull)%string],
      ({| cache := JNull; timestamp := clock 1000 |},
       {| host := 1040;
          trace := [] ++ [EvLog "First call:";
                          EvNow (clock 1000);
                          EvCall [] (Returned JNull)] |}))).
Proof.
  apply (main_stops_on_missing_data clock timer (server 40 200 JNull)
           render first_post no_property [] [] 1000 1040 JNull).
  - reflexivity.
  - now left.
Defined.

End OnTheTestHost.
